(** * authweb3: nonce-based wallet login (challenge issue / signature verify)

  A shallow embedding of [authweb3/views.py].  The two views [get_nonce]
  and [verify_signature] are written in a small state-and-exception monad
  over the persisted identity store, the entropy consumed so far and the
  session.  Library calls the views make and whose code is not part of the
  repository (the JSON decoder, the signature recovery primitive, the
  operating system entropy, the lowercasing of a str) are the fields of the
  class [Platform]. *)

From Stdlib Require Import ZArith Strings.Ascii Strings.String Strings.Byte Floats.SpecFloat.
From stdpp Require Import gmap strings list pretty.

Set Warnings "-register-all".
Local Open Scope string_scope.

(** ** Python values *)

Module Py.

(** An exception: its class name and [str(e)]. *)
Inductive exn : Type := Exn (cls : string) (msg : string).

Definition exn_class (e : exn) : string := let 'Exn c _ := e in c.
Definition exn_str (e : exn) : string := let 'Exn _ m := e in m.

(** The outcome of evaluating a Python expression. *)
Inductive pyresult (A : Type) : Type :=
| Returns (a : A)
| Raises (e : exn).
Arguments Returns {A} a.
Arguments Raises {A} e.

(** What [json.loads] can return.  A JSON object becomes a [dict], kept
    here as an association list with one entry per key. *)
Inductive json : Type :=
| JNull
| JBool (b : bool)
| JInt (z : Z)
| JFloat (f : spec_float)
| JStr (s : string)
| JList (l : list json)
| JDict (d : list (string * json)).

(** [bool(v)] *)
Definition truthy (v : json) : bool :=
  match v with
  | JNull => false
  | JBool b => b
  | JInt z => negb (z =? 0)%Z
  | JFloat (S754_zero _) => false
  | JFloat _ => true
  | JStr s => negb (String.eqb s "")
  | JList l => match l with [] => false | _ => true end
  | JDict d => match d with [] => false | _ => true end
  end.

(** [type(v).__name__] *)
Definition type_name (v : json) : string :=
  match v with
  | JNull => "NoneType"
  | JBool _ => "bool"
  | JInt _ => "int"
  | JFloat _ => "float"
  | JStr _ => "str"
  | JList _ => "list"
  | JDict _ => "dict"
  end.

Definition AttributeError (v : json) (attr : string) : exn :=
  Exn "AttributeError"
      ("'" +:+ type_name v +:+ "' object has no attribute '" +:+ attr +:+ "'").

Fixpoint dict_get (key : string) (d : list (string * json)) : option json :=
  match d with
  | [] => None
  | (k, v) :: d' => if String.eqb k key then Some v else dict_get key d'
  end.

(** [data.get(key)]: only a dict has the method; a missing key gives
    [None]. *)
Definition get (data : json) (key : string) : pyresult json :=
  match data with
  | JDict d => Returns (default JNull (dict_get key d))
  | _ => Raises (AttributeError data "get")
  end.

(** [a or b] *)
Definition or_ (a b : json) : json := if truthy a then a else b.

(** [c.lower()] on one character of the ASCII range. *)
Definition lower_ascii (c : ascii) : ascii :=
  let n := nat_of_ascii c in
  if ((65 <=? n) && (n <=? 90))%nat then ascii_of_nat (n + 32) else c.

(** [s.lower()] as it is on ASCII text: the letters A to Z are lowered and
    every other character is kept. *)
Fixpoint ascii_lower (s : string) : string :=
  match s with
  | EmptyString => EmptyString
  | String c s' => String (lower_ascii c) (ascii_lower s')
  end.

(** [binascii.hexlify]: two lowercase hexadecimal digits per byte. *)
Definition hexdigit (n : N) : ascii :=
  match n with
  | 0 => "0" | 1 => "1" | 2 => "2" | 3 => "3" | 4 => "4" | 5 => "5"
  | 6 => "6" | 7 => "7" | 8 => "8" | 9 => "9" | 10 => "a" | 11 => "b"
  | 12 => "c" | 13 => "d" | 14 => "e" | _ => "f"
  end%N%char.

Fixpoint hexlify (bs : list byte) : string :=
  match bs with
  | [] => EmptyString
  | b :: bs' =>
      let n := Byte.to_N b in
      String (hexdigit (n / 16)) (String (hexdigit (n mod 16)) (hexlify bs'))
  end.

(** [binascii.unhexlify], for lowercase digits: [None] where it raises. *)
Definition hexval (c : ascii) : option N :=
  let n := N_of_ascii c in
  if ((48 <=? n) && (n <=? 57))%N then Some (n - 48)%N
  else if ((97 <=? n) && (n <=? 102))%N then Some (n - 87)%N
  else None.

Fixpoint unhexlify (s : string) : option (list byte) :=
  match s with
  | EmptyString => Some []
  | String _ EmptyString => None
  | String c1 (String c2 s') =>
      match hexval c1, hexval c2 with
      | Some h, Some l =>
          match Byte.of_N (16 * h + l), unhexlify s' with
          | Some b, Some bs => Some (b :: bs)
          | _, _ => None
          end
      | _, _ => None
      end
  end.

Definition is_hexdigit (c : ascii) : bool :=
  let n := nat_of_ascii c in
  (((48 <=? n) && (n <=? 57)) || ((97 <=? n) && (n <=? 102)))%nat.

Fixpoint all_hex (s : string) : bool :=
  match s with
  | EmptyString => true
  | String c s' => is_hexdigit c && all_hex s'
  end.

End Py.
Export Py.

(** ** Requests, responses and the persisted state *)

Module Django.

(** The two attributes of [request] the views read. *)
Record HttpRequest : Type := { method : string; body : string }.

(** [JsonResponse(content, status=status)] *)
Record JsonResponse : Type :=
  { content : list (string * json); status : nat }.

(** Modelled from the spec: [models.py] and [signals.py] are not among the
    sources.  The persisted state is one record per identity, keyed by the
    unique [username] (the address), with a nullable [nonce]; the profile
    of a user that was just created has no nonce yet. *)
Record UserProfile : Type := { nonce : option string }.

(** [profile.nonce = n] *)
Definition set_nonce (n : string) (p : UserProfile) : UserProfile :=
  {| nonce := Some n |}.

(** [profile.nonce] as it is serialised in a response. *)
Definition nonce_json (p : UserProfile) : json :=
  match nonce p with Some n => JStr n | None => JNull end.

(** The state a view runs in: the user table, how many bytes of the entropy
    tape were consumed, and the identity the session is logged in as. *)
Record World : Type :=
  { users : gmap string UserProfile;
    drawn : nat;
    session : option string }.

Definition set_users (f : gmap string UserProfile -> gmap string UserProfile)
    (w : World) : World :=
  {| users := f (users w); drawn := drawn w; session := session w |}.

Definition set_drawn (n : nat) (w : World) : World :=
  {| users := users w; drawn := n; session := session w |}.

Definition set_session (s : option string) (w : World) : World :=
  {| users := users w; drawn := drawn w; session := s |}.

(** A computation that reads and writes the state and may raise. *)
Definition M (A : Type) : Type := World -> pyresult A * World.

Definition ret {A} (a : A) : M A := fun w => (Returns a, w).

Definition lift {A} (r : pyresult A) : M A := fun w => (r, w).

Definition bind {A B} (m : M A) (k : A -> M B) : M B :=
  fun w =>
    match m w with
    | (Returns a, w') => k a w'
    | (Raises e, w') => (Raises e, w')
    end.

(** [try: x = m  except <catches> as e: return handler(e)], then [k x]. *)
Definition try_except {A B} (m : M A) (catches : exn -> bool)
    (handler : exn -> M B) (k : A -> M B) : M B :=
  fun w =>
    match m w with
    | (Returns a, w') => k a w'
    | (Raises e, w') => if catches e then handler e w' else (Raises e, w')
    end.

(** [User.objects.get(username=username).userprofile] *)
Definition objects_get (username : string) : M UserProfile :=
  fun w =>
    match users w !! username with
    | Some p => (Returns p, w)
    | None => (Raises (Exn "DoesNotExist" "User matching query does not exist."), w)
    end.

(** [User.objects.get_or_create(username=username)[0].userprofile]; a user
    that is created comes with a profile whose nonce is not set. *)
Definition objects_get_or_create (username : string) : M UserProfile :=
  fun w =>
    match users w !! username with
    | Some p => (Returns p, w)
    | None =>
        let p := {| nonce := None |} in
        (Returns p, set_users (insert username p) w)
    end.

(** [profile.save()] for the profile of [username]. *)
Definition save (username : string) (p : UserProfile) : M unit :=
  fun w => (Returns tt, set_users (insert username p) w).

(** [login(request, user)] *)
Definition login (username : string) : M unit :=
  fun w => (Returns tt, set_session (Some username) w).

End Django.
Export Django.

Notation "'let*' x ':=' m 'in' k" := (bind m (fun x => k))
(at level 10, x name, m at level 100, k at level 200).

(** ** eth_account *)

(** [SignableMessage(version, header, body)] *)
Record SignableMessage : Type :=
{ sm_version : string; sm_header : string; sm_body : string }.

(** [encode_defunct(text=text)]: the personal-message envelope, whose header
  ends with the decimal length of the message. *)
Definition encode_defunct (text : string) : SignableMessage :=
{| sm_version := "E";
   sm_header := "thereum Signed Message:" +:+ String "010" (pretty (String.length text));
   sm_body := text |}.

(** ** What the host provides *)

Class Platform : Type :=
{ (** [json.loads] *)
  json_loads : string -> pyresult json;
  (** [Web3().eth.account.recover_message(signable, signature=signature)] *)
  recover_message : SignableMessage -> json -> pyresult string;
  (** the operating system's entropy, as an endless tape of bytes *)
  urandom : nat -> byte;
  (** [s.lower()], Python's lowercasing of a str, over all of Unicode *)
  str_lower : string -> string;
  (** lowercasing never empties a text: every character lowers to at least
      one character *)
  str_lower_empty : forall s, str_lower s = "" <-> s = "";
  (** a lowercased text is its own lowercase: the characters that lowering
      yields are lowered already *)
  str_lower_idem : forall s, str_lower (str_lower s) = str_lower s }.

(** ** authweb3/views.py *)

Section Views.

Context `{P : Platform}.

(** [secrets.token_bytes(nbytes)]: the next [nbytes] bytes of the tape. *)
Definition token_bytes (nbytes : nat) : M (list byte) :=
  fun w => (Returns (map urandom (seq (drawn w) nbytes)),
            set_drawn (drawn w + nbytes) w).

(** [secrets.token_hex(nbytes)] *)
Definition token_hex (nbytes : nat) : M string :=
  let* bs := token_bytes nbytes in ret (hexlify bs).

(** [request.body or "{}"] (the default is the empty JSON object). *)
Definition body_or_default (request : HttpRequest) : string :=
  if String.eqb (body request) "" then "{}" else body request.

(** [v.lower()]: only a str has the method. *)
Definition lower (v : json) : pyresult string :=
  match v with
  | JStr s => Returns (str_lower s)
  | _ => Raises (AttributeError v "lower")
  end.

(** [(data.get("address") or "").lower()] *)
Definition address_of (data : json) : M string :=
  let* v := lift (Py.get data "address") in
  lift (lower (or_ v (JStr ""))).

(** [f"Login nonce: {profile.nonce}"] *)
Definition message_text (profile : UserProfile) : string :=
  "Login nonce: " +:+ default "None" (nonce profile).

Definition get_nonce (request : HttpRequest) : M JsonResponse :=
  if negb (String.eqb (method request) "POST") then
    ret {| content := [("error", JStr "POST required")]; status := 405 |}
  else
    let* data := lift (json_loads (body_or_default request)) in
    let* address := address_of data in
    if negb (truthy (JStr address)) then
      ret {| content := [("error", JStr "Missing address")]; status := 400 |}
    else
      let* profile := objects_get_or_create address in
      let* n := token_hex 16 in
      let profile := set_nonce n profile in
      let* _ := save address profile in
      ret {| content := [("nonce", nonce_json profile)]; status := 200 |}.

Definition verify_signature (request : HttpRequest) : M JsonResponse :=
  if negb (String.eqb (method request) "POST") then
    ret {| content := [("error", JStr "POST required")]; status := 405 |}
  else
    let* data := lift (json_loads (body_or_default request)) in
    let* address := address_of data in
    let* signature := lift (Py.get data "signature") in
    if negb (truthy (JStr address)) || negb (truthy signature) then
      ret {| content := [("success", JBool false);
                         ("error", JStr "Missing address/signature")];
             status := 400 |}
    else
      try_except (objects_get address)
        (fun e => String.eqb (exn_class e) "DoesNotExist")
        (fun _ =>
           ret {| content := [("success", JBool false);
                              ("error", JStr "User not found")];
                  status := 404 |})
        (fun profile =>
           let signable := encode_defunct (message_text profile) in
           try_except
             (let* r := lift (recover_message signable signature) in
              ret (str_lower r))
             (fun _ => true)
             (fun e =>
                ret {| content := [("success", JBool false);
                                   ("error", JStr ("Recover failed: " +:+ exn_str e))];
                       status := 400 |})
             (fun recovered =>
                if String.eqb recovered address then
                  let* n := token_hex 16 in
                  let* _ := save address (set_nonce n profile) in
                  let* _ := login address in
                  ret {| content := [("success", JBool true);
                                     ("address", JStr address)];
                         status := 200 |}
                else
                  ret {| content := [("success", JBool false);
                                     ("error", JStr "Invalid signature")];
                         status := 401 |})).

End Views.

(** ** Lowercasing on ASCII text

  The two facts a [Platform] states of [str_lower], for [ascii_lower]. *)

Section AsciiLower.

Lemma lower_ascii_idem c : lower_ascii (lower_ascii c) = lower_ascii c.
Proof. by destruct c as [[] [] [] [] [] [] [] []]. Qed.

Lemma ascii_lower_idem s : ascii_lower (ascii_lower s) = ascii_lower s.
Proof.
  induction s as [|c s IH]; simpl; [done|].
  by rewrite lower_ascii_idem, IH.
Qed.

Lemma ascii_lower_empty s : ascii_lower s = "" <-> s = "".
Proof. destruct s; simpl; split; congruence. Qed.

End AsciiLower.

(** ** A reference platform for concrete runs

  The laws below are proved for every [Platform].  To run the views on
  concrete requests, [RefPlatform.reference] supplies one: a decoder for
  the ASCII fragment of JSON that has no fractional numbers and no [\u]
  escapes, a stand-in signature scheme, a chosen entropy tape, and the
  lowercasing of ASCII text. *)

Module RefPlatform.

Inductive scan (A : Type) : Type :=
| Ok (a : A) (rest : string)
| Bad (msg : string)
| Beyond.
Arguments Ok {A} a rest.
Arguments Bad {A} msg.
Arguments Beyond {A}.

Definition dquote : ascii := "034".
Definition backslash : ascii := "\".

Definition is_ws (c : ascii) : bool :=
  match c with
  | " " | "009" | "010" | "013" => true
  | _ => false
  end%char.

Fixpoint skip_ws (s : string) : string :=
  match s with
  | String c s' => if is_ws c then skip_ws s' else s
  | EmptyString => s
  end.

Fixpoint strip_prefix (p s : string) : option string :=
  match p, s with
  | EmptyString, _ => Some s
  | String a p', String b s' => if Ascii.eqb a b then strip_prefix p' s' else None
  | String _ _, EmptyString => None
  end.

Definition is_digit (c : ascii) : bool :=
  let n := nat_of_ascii c in ((48 <=? n) && (n <=? 57))%nat.

Definition starts_with_digit (s : string) : bool :=
  match s with String c _ => is_digit c | EmptyString => false end.

(** The characters a backslash may introduce, [\u] apart. *)
Definition unescape (c : ascii) : option ascii :=
  match c with
  | "034" => Some "034" | "\" => Some "\" | "/" => Some "/"
  | "b" => Some "008" | "f" => Some "012" | "n" => Some "010"
  | "r" => Some "013" | "t" => Some "009"
  | _ => None
  end%char.

Definition cons_char (c : ascii) (r : scan string) : scan string :=
  match r with
  | Ok s rest => Ok (String c s) rest
  | Bad m => Bad m
  | Beyond => Beyond
  end.

(** The body of a string literal, after its opening quote. *)
Fixpoint scanstring (s : string) : scan string :=
  match s with
  | EmptyString => Bad "Unterminated string starting at"
  | String c s' =>
      if Ascii.eqb c dquote then Ok EmptyString s'
      else if Ascii.eqb c backslash then
        match s' with
        | EmptyString => Bad "Unterminated string starting at"
        | String e s'' =>
            match unescape e with
            | Some r => cons_char r (scanstring s'')
            | None => if Ascii.eqb e "u" then Beyond else Bad "Invalid \escape"
            end
        end
      else if (nat_of_ascii c <? 32)%nat then Bad "Invalid control character at"
      else cons_char c (scanstring s')
  end.

(** A run of digits, most significant first. *)
Fixpoint digits (acc : Z) (s : string) : Z * string :=
  match s with
  | String c s' =>
      if is_digit c then digits (10 * acc + Z.of_nat (nat_of_ascii c - 48)) s'
      else (acc, s)
  | EmptyString => (acc, s)
  end.

(** Whether a fraction or an exponent follows the integer part. *)
Definition float_follows (s : string) : bool :=
  match s with
  | String "." s' => starts_with_digit s'
  | String "e" s' | String "E" s' =>
      match s' with
      | String "-" s'' | String "+" s'' => starts_with_digit s''
      | _ => starts_with_digit s'
      end
  | _ => false
  end.

(** The integer part of a number, its sign already read: a lone 0, or a
    nonzero digit and the digits after it. *)
Definition number (sign : Z) (s : string) : scan json :=
  match s with
  | String c s' =>
      if Ascii.eqb c "0" then
        if float_follows s' then Beyond else Ok (JInt 0) s'
      else if is_digit c then
        let '(n, rest) := digits 0 s in
        if float_follows rest then Beyond else Ok (JInt (sign * n)) rest
      else Bad "Expecting value"
  | EmptyString => Bad "Expecting value"
  end.

(** [dict(pairs)]: a repeated key keeps its place and takes the later
    value. *)
Fixpoint dict_set (k : string) (v : json) (d : list (string * json))
    : list (string * json) :=
  match d with
  | [] => [(k, v)]
  | (k', v') :: d' =>
      if String.eqb k' k then (k', v) :: d' else (k', v') :: dict_set k v d'
  end.

Definition literal (word : string) (v : json) (s : string) : scan json :=
  match strip_prefix word s with
  | Some rest => Ok v rest
  | None => Bad "Expecting value"
  end.

Fixpoint scan_once (fuel : nat) (s : string) : scan json :=
  match fuel with
  | O => Beyond
  | S fuel' =>
      match s with
      | EmptyString => Bad "Expecting value"
      | String c s' =>
          if Ascii.eqb c dquote then
            match scanstring s' with
            | Ok k rest => Ok (JStr k) rest
            | Bad m => Bad m
            | Beyond => Beyond
            end
          else if Ascii.eqb c "{" then
            match skip_ws s' with
            | String "}" rest => Ok (JDict []) rest
            | String "034" rest => members fuel' rest []
            | _ => Bad "Expecting property name enclosed in double quotes"
            end
          else if Ascii.eqb c "[" then
            match skip_ws s' with
            | String "]" rest => Ok (JList []) rest
            | rest => elements fuel' rest []
            end
          else if Ascii.eqb c "n" then literal "null" JNull s
          else if Ascii.eqb c "t" then literal "true" (JBool true) s
          else if Ascii.eqb c "f" then literal "false" (JBool false) s
          else if Ascii.eqb c "N" then literal "NaN" (JFloat S754_nan) s
          else if Ascii.eqb c "I" then
            literal "Infinity" (JFloat (S754_infinity false)) s
          else if Ascii.eqb c "-" then
            match number (-1) s' with
            | Bad _ => literal "-Infinity" (JFloat (S754_infinity true)) s
            | r => r
            end
          else number 1 s
      end
  end
with members (fuel : nat) (s : string) (acc : list (string * json)) : scan json :=
  match fuel with
  | O => Beyond
  | S fuel' =>
      match scanstring s with
      | Ok key rest =>
          match skip_ws rest with
          | String ":" rest =>
              match scan_once fuel' (skip_ws rest) with
              | Ok v rest =>
                  let acc := dict_set key v acc in
                  match skip_ws rest with
                  | String "}" rest => Ok (JDict acc) rest
                  | String "," rest =>
                      match skip_ws rest with
                      | String "034" rest => members fuel' rest acc
                      | _ => Bad "Expecting property name enclosed in double quotes"
                      end
                  | _ => Bad "Expecting ',' delimiter"
                  end
              | Bad m => Bad m
              | Beyond => Beyond
              end
          | _ => Bad "Expecting ':' delimiter"
          end
      | Bad m => Bad m
      | Beyond => Beyond
      end
  end
with elements (fuel : nat) (s : string) (acc : list json) : scan json :=
  match fuel with
  | O => Beyond
  | S fuel' =>
      match scan_once fuel' s with
      | Ok v rest =>
          match skip_ws rest with
          | String "]" rest => Ok (JList (rev (v :: acc))) rest
          | String "," rest => elements fuel' (skip_ws rest) (v :: acc)
          | _ => Bad "Expecting ',' delimiter"
          end
      | Bad m => Bad m
      | Beyond => Beyond
      end
  end.

Fixpoint all_ascii (s : string) : bool :=
  match s with
  | EmptyString => true
  | String c s' =>
      let n := nat_of_ascii c in ((1 <=? n) && (n <? 128))%nat && all_ascii s'
  end.

(** [json.loads(s)] on the fragment.  A text outside it (a byte that is not
    ASCII, a fractional number, a [\u] escape) is reported as
    [NotImplementedError], which Python itself would not raise; for a text
    that does not decode, the message is the one of [e.msg], without the
    position that [str(e)] appends. *)
Definition loads (s : string) : pyresult json :=
  if all_ascii s then
    match scan_once (2 * String.length s + 2) (skip_ws s) with
    | Ok v rest =>
        match skip_ws rest with
        | EmptyString => Returns v
        | _ => Raises (Exn "JSONDecodeError" "Extra data")
        end
    | Bad m => Raises (Exn "JSONDecodeError" m)
    | Beyond => Raises (Exn "NotImplementedError" "outside the modelled JSON fragment")
    end
  else Raises (Exn "NotImplementedError" "outside the modelled JSON fragment").

(** A stand-in for the signature scheme: the signature of the message [m]
    by the key of address [a] is the text [a], a vertical bar, then [m].
    Recovery over another message yields the address of nobody; a value
    that is no such text is rejected. *)
Fixpoint split_bar (s : string) : option (string * string) :=
  match s with
  | EmptyString => None
  | String c s' =>
      if Ascii.eqb c "|" then Some (EmptyString, s')
      else match split_bar s' with
           | Some (a, m) => Some (String c a, m)
           | None => None
           end
  end.

Definition sign (a : string) (m : SignableMessage) : json :=
  JStr (a +:+ "|" +:+ sm_body m).

(** An address has no vertical bar in it. *)
Fixpoint bar_free (s : string) : bool :=
  match s with
  | EmptyString => true
  | String c s' => negb (Ascii.eqb c "|") && bar_free s'
  end.

Definition recover (m : SignableMessage) (signature : json) : pyresult string :=
  match signature with
  | JStr s =>
      match split_bar s with
      | Some (a, m') =>
          if String.eqb m' (sm_body m) then Returns a
          else Returns "0x000000000000000000000000000000000000dEaD"
      | None => Raises (Exn "BadSignature" "signature is not of the form address|message")
      end
  | _ => Raises (Exn "TypeError" "signature must be a string")
  end.

Definition reference (tape : nat -> byte) : Platform :=
  {| json_loads := loads; recover_message := recover; urandom := tape;
     str_lower := ascii_lower;
     str_lower_empty := ascii_lower_empty;
     str_lower_idem := ascii_lower_idem |}.

(** A tape that counts up from 0x10, and one that is stuck at zero. *)
Definition counting (i : nat) : byte :=
  default x00 (Byte.of_N ((16 + N.of_nat i) mod 256)).

Definition stuck (i : nat) : byte := x00.

(** JSON text is written here with an apostrophe for each double quote. *)
Fixpoint json_text (s : string) : string :=
  match s with
  | EmptyString => EmptyString
  | String c s' => String (if Ascii.eqb c "'" then dquote else c) (json_text s')
  end.

Definition POST (text : string) : HttpRequest :=
  {| method := "POST"; body := json_text text |}.

Definition empty_world : World :=
  {| users := ∅; drawn := 0; session := None |}.

End RefPlatform.

(** ** Concrete runs on the reference platform *)

Module Scenario.
Import RefPlatform.

(** The views over the counting tape and over the stuck tape. *)
Definition issue := @get_nonce (reference counting).
Definition verify := @verify_signature (reference counting).
Definition issue_stuck := @get_nonce (reference stuck).
Definition verify_stuck := @verify_signature (reference stuck).

Definition ask_AbC : HttpRequest := POST "{'address': '0xAbC'}".
Definition ask_abc : HttpRequest := POST "{'address': '0xabc'}".
Definition ask_blank : HttpRequest := POST "{'address': ' '}".
Definition ask_nothing : HttpRequest := POST "{'address': ''}".
Definition not_json : HttpRequest := POST "not json".

(** The first sixteen bytes of each tape, as a nonce. *)
Definition n1 : string := "101112131415161718191a1b1c1d1e1f".
Definition n2 : string := "202122232425262728292a2b2c2d2e2f".
Definition zeros : string := "00000000000000000000000000000000".

(** After [issue(0xAbC)] on the empty store. *)
Definition w1 : World := (issue ask_AbC empty_world).2.
Definition w1_stuck : World := (issue_stuck ask_AbC empty_world).2.

(** Signed by the holder of 0xABC over the live nonce. *)
Definition answer_good : HttpRequest :=
  POST "{'address': '0xAbC', 'signature': '0xABC|Login nonce: 101112131415161718191a1b1c1d1e1f'}".
Definition answer_good_stuck : HttpRequest :=
  POST "{'address': '0xAbC', 'signature': '0xABC|Login nonce: 00000000000000000000000000000000'}".
(** Signed over an older nonce. *)
Definition answer_stale : HttpRequest :=
  POST "{'address': '0xAbC', 'signature': '0xABC|Login nonce: 0f0e0d0c0b0a09080706050403020100'}".
(** Not a signature at all. *)
Definition answer_garbled : HttpRequest :=
  POST "{'address': '0xAbC', 'signature': 'garbled'}".
Definition answer_unsigned : HttpRequest :=
  POST "{'address': '0xAbC', 'signature': ''}".

End Scenario.

(** ** The paths through the views, as relations

  Each constructor below is one way a view can end; [get_nonce_paths] and
  [verify_signature_paths] show that the views always end in one of them. *)

Section Paths.

Context `{P : Platform}.

(** The value of [(data.get("address") or "").lower()], without state. *)
Definition claimed (data : json) : pyresult string :=
  match Py.get data "address" with
  | Returns v => lower (or_ v (JStr ""))
  | Raises e => Raises e
  end.

(** [d.get(key)] for the decoded object [d]. *)
Definition field (d : list (string * json)) (key : string) : json :=
  default JNull (dict_get key d).

(** The nonce the next [token_hex(16)] yields in [w]. *)
Definition fresh_bytes (w : World) : list byte :=
  map urandom (seq (drawn w) 16).

Definition fresh_nonce (w : World) : string := hexlify (fresh_bytes w).

(** The state after a challenge was issued to [a] in [w]. *)
Definition issued (a : string) (w : World) : World :=
  {| users := <[a := {| nonce := Some (fresh_nonce w) |}]> (users w);
     drawn := drawn w + 16;
     session := session w |}.

(** The state after [a] was granted a session in [w]. *)
Definition granted (a : string) (w : World) : World :=
  {| users := <[a := {| nonce := Some (fresh_nonce w) |}]> (users w);
     drawn := drawn w + 16;
     session := Some a |}.

Definition respond (c : list (string * json)) (st : nat) (w : World)
    : pyresult JsonResponse * World :=
  (Returns {| content := c; status := st |}, w).

Definition recovered (p : UserProfile) (signature : json) : pyresult string :=
  recover_message (encode_defunct (message_text p)) signature.

Inductive get_nonce_path (request : HttpRequest) (w : World)
    : pyresult JsonResponse * World -> Prop :=
| issue_not_post :
    method request <> "POST" ->
    get_nonce_path request w
      (respond [("error", JStr "POST required")] 405 w)
| issue_undecodable e :
    method request = "POST" ->
    json_loads (body_or_default request) = Raises e ->
    get_nonce_path request w (Raises e, w)
| issue_bad_shape data e :
    method request = "POST" ->
    json_loads (body_or_default request) = Returns data ->
    claimed data = Raises e ->
    get_nonce_path request w (Raises e, w)
| issue_missing data :
    method request = "POST" ->
    json_loads (body_or_default request) = Returns data ->
    claimed data = Returns "" ->
    get_nonce_path request w
      (respond [("error", JStr "Missing address")] 400 w)
| issue_ok data a :
    method request = "POST" ->
    json_loads (body_or_default request) = Returns data ->
    claimed data = Returns a ->
    a <> "" ->
    get_nonce_path request w
      (respond [("nonce", JStr (fresh_nonce w))] 200 (issued a w)).

Inductive verify_signature_path (request : HttpRequest) (w : World)
    : pyresult JsonResponse * World -> Prop :=
| verify_not_post :
    method request <> "POST" ->
    verify_signature_path request w
      (respond [("error", JStr "POST required")] 405 w)
| verify_undecodable e :
    method request = "POST" ->
    json_loads (body_or_default request) = Raises e ->
    verify_signature_path request w (Raises e, w)
| verify_bad_shape data e :
    method request = "POST" ->
    json_loads (body_or_default request) = Returns data ->
    claimed data = Raises e ->
    verify_signature_path request w (Raises e, w)
| verify_missing d a :
    method request = "POST" ->
    json_loads (body_or_default request) = Returns (JDict d) ->
    claimed (JDict d) = Returns a ->
    a = "" \/ truthy (field d "signature") = false ->
    verify_signature_path request w
      (respond [("success", JBool false);
                ("error", JStr "Missing address/signature")] 400 w)
| verify_unknown d a :
    method request = "POST" ->
    json_loads (body_or_default request) = Returns (JDict d) ->
    claimed (JDict d) = Returns a ->
    a <> "" ->
    truthy (field d "signature") = true ->
    users w !! a = None ->
    verify_signature_path request w
      (respond [("success", JBool false); ("error", JStr "User not found")]
         404 w)
| verify_recover_fails d a p e :
    method request = "POST" ->
    json_loads (body_or_default request) = Returns (JDict d) ->
    claimed (JDict d) = Returns a ->
    a <> "" ->
    truthy (field d "signature") = true ->
    users w !! a = Some p ->
    recovered p (field d "signature") = Raises e ->
    verify_signature_path request w
      (respond [("success", JBool false);
                ("error", JStr ("Recover failed: " +:+ exn_str e))] 400 w)
| verify_mismatch d a p r :
    method request = "POST" ->
    json_loads (body_or_default request) = Returns (JDict d) ->
    claimed (JDict d) = Returns a ->
    a <> "" ->
    truthy (field d "signature") = true ->
    users w !! a = Some p ->
    recovered p (field d "signature") = Returns r ->
    str_lower r <> a ->
    verify_signature_path request w
      (respond [("success", JBool false); ("error", JStr "Invalid signature")]
         401 w)
| verify_ok d a p r :
    method request = "POST" ->
    json_loads (body_or_default request) = Returns (JDict d) ->
    claimed (JDict d) = Returns a ->
    a <> "" ->
    truthy (field d "signature") = true ->
    users w !! a = Some p ->
    recovered p (field d "signature") = Returns r ->
    str_lower r = a ->
    verify_signature_path request w
      (respond [("success", JBool true); ("address", JStr a)] 200
         (granted a w)).

(** [request] is a POST whose body decodes to the JSON object [d]. *)
Definition posts (request : HttpRequest) (d : list (string * json)) : Prop :=
  method request = "POST" /\
  json_loads (body_or_default request) = Returns (JDict d).

(** [request] is the call [issue(A)]. *)
Definition issue_call (request : HttpRequest) (A : string) : Prop :=
  exists d, posts request d /\ dict_get "address" d = Some (JStr A).

(** [request] is the call [verify(A, sig)]. *)
Definition verify_call (request : HttpRequest) (A : string) (sig : json) : Prop :=
  exists d, posts request d /\ dict_get "address" d = Some (JStr A) /\
            dict_get "signature" d = Some sig.




(** A nonce as [token_hex(16)] makes them. *)
Definition nonce_shaped (n : string) : Prop :=
  String.length n = 32 /\ all_hex n = true.



End Paths.

(** ** The other views of views.py, and the routes of urls.py *)

(** What a view returns: a JSON answer, [render(request, template)],
    [redirect(to)], or the redirection to the login page with which
    [login_required] answers an anonymous request. *)
Inductive HttpResponse : Type :=
| Json (r : JsonResponse)
| Rendered (template : string)
| Redirect (to : string)
| LoginRedirect.

Section Site.

Context `{P : Platform}.

Definition index (request : HttpRequest) : M HttpResponse :=
  ret (Rendered "index.html").

(** [@login_required]: the view runs for a logged-in session only. *)
Definition login_required (view : HttpRequest -> M HttpResponse)
    (request : HttpRequest) : M HttpResponse :=
  fun w =>
    match session w with
    | Some _ => view request w
    | None => (Returns LoginRedirect, w)
    end.

(** [request.user.username]; the anonymous user's name is empty. *)
Definition request_user_username : M string :=
  fun w => (Returns (default "" (session w)), w).

(** [logout(request)] *)
Definition logout : M unit :=
  fun w => (Returns tt, set_session None w).

Definition dashboard : HttpRequest -> M HttpResponse :=
  login_required (fun request =>
    let* username := request_user_username in
    ret (Json {| content :=
                   [("message",
                     JStr ("Hola " +:+ username +:+
                           ", estás autenticado con MetaMask."))];
                 status := 200 |})).

Definition logout_view (request : HttpRequest) : M HttpResponse :=
  let* _ := logout in
  ret (Redirect "home").

(** A view that answers with a [JsonResponse], as a view of the site. *)
Definition json_view (view : HttpRequest -> M JsonResponse)
    (request : HttpRequest) : M HttpResponse :=
  let* r := view request in ret (Json r).

(** [urlpatterns]: each [path(route, view, name=name)]. *)
Definition urlpatterns : list (string * (HttpRequest -> M HttpResponse) * string) :=
  [ ("", index, "home");
    ("get-nonce/", json_view get_nonce, "get_nonce");
    ("verify-signature/", json_view verify_signature, "verify_signature");
    ("dashboard/", dashboard, "dashboard");
    ("logout/", logout_view, "logout") ].

(** The first pattern whose route is the path (a route without converters
    matches that very text only). *)
Fixpoint resolve_in (patterns : list (string * (HttpRequest -> M HttpResponse) * string))
    (path : string) : option (HttpRequest -> M HttpResponse) :=
  match patterns with
  | [] => None
  | (route, view, _) :: rest =>
      if String.eqb route path then Some view else resolve_in rest path
  end.

(** The route of the pattern that carries the name. *)
Fixpoint reverse_in (patterns : list (string * (HttpRequest -> M HttpResponse) * string))
    (name : string) : option string :=
  match patterns with
  | [] => None
  | (route, _, name') :: rest =>
      if String.eqb name' name then Some route else reverse_in rest name
  end.

Definition resolve : string -> option (HttpRequest -> M HttpResponse) :=
  resolve_in urlpatterns.

Definition reverse : string -> option string := reverse_in urlpatterns.

(** A request for [path], the part of the URL below the place where the
    routes are mounted: the resolved view runs; no route, no view. *)
Definition serve (path : string) (request : HttpRequest) : M HttpResponse :=
  match resolve path with
  | Some view => view request
  | None => lift (Raises (Exn "Resolver404" path))
  end.

(** The state after a sequence of requests to the site. *)
Fixpoint run (visits : list (string * HttpRequest)) (w : World) : World :=
  match visits with
  | [] => w
  | (path, request) :: rest => run rest (serve path request w).2
  end.

(** What the site keeps true of its state: every record is keyed by a
    non-empty lowercase address and holds a nonce of the generated shape,
    and the session, when logged in, is that of an identity on record. *)
Definition normalized (a : string) : Prop := a <> "" /\ str_lower a = a.

Definition store_ok (w : World) : Prop :=
  forall a p, users w !! a = Some p ->
    normalized a /\ exists n, nonce p = Some n /\ nonce_shaped n.

Definition session_ok (w : World) : Prop :=
  forall a, session w = Some a -> is_Some (users w !! a).

Definition site_ok (w : World) : Prop := store_ok w /\ session_ok w.

End Site.

(** Visits of the reference platform's site. *)
Module Tour.
Import RefPlatform Scenario.

Definition site := @serve (reference counting).
Definition GET : HttpRequest := {| method := "GET"; body := EmptyString |}.
Definition GET_not_json : HttpRequest := {| method := "GET"; body := "not json" |}.
Definition POST_nothing : HttpRequest := {| method := "POST"; body := EmptyString |}.
Definition POST_empty_object : HttpRequest := POST "{}".

(** The same call as [answer_good], in other casing and with more fields. *)
Definition answer_good_lower : HttpRequest :=
  POST "{'signature': '0xABC|Login nonce: 101112131415161718191a1b1c1d1e1f', 'address': '0xabc', 'chain': 1}".
Definition ask_AbC_more : HttpRequest :=
  POST "{'chain': [1, 2], 'address': '0xAbC'}".
Definition ask_list : HttpRequest := POST "{'address': [1]}".
Definition post_list : HttpRequest := POST "[1, 2]".


(** A store with an identity that was never issued a challenge. *)
Definition w_null : World :=
  {| users := {["0xabc" := {| nonce := None |}]}; drawn := 0; session := None |}.
Definition answer_none : HttpRequest :=
  POST "{'address': '0xAbC', 'signature': '0xabc|Login nonce: None'}".

(** A visit of every route, and of a path that is no route. *)
Definition tour : list (string * HttpRequest) :=
  [ (EmptyString, GET); ("get-nonce/", ask_AbC);
    ("verify-signature/", answer_good); ("dashboard/", GET);
    ("logout/", GET); ("nowhere/", POST_nothing) ].

End Tour.

(** ** Facts about the Python values *)

Section PyFacts.

Lemma hexlify_length bs : String.length (hexlify bs) = 2 * length bs.
Proof. induction bs as [|b bs IH]; simpl; [done|]. rewrite IH. lia. Qed.

Lemma hexdigits_of_byte b :
  is_hexdigit (hexdigit (Byte.to_N b / 16)) = true /\
  is_hexdigit (hexdigit (Byte.to_N b mod 16)) = true.
Proof. by destruct b. Qed.

Lemma hexlify_all_hex bs : all_hex (hexlify bs) = true.
Proof.
  induction bs as [|b bs IH]; simpl; [done|].
  destruct (hexdigits_of_byte b) as [-> ->]. by rewrite IH.
Qed.

Lemma unhex_byte b :
  match hexval (hexdigit (Byte.to_N b / 16)),
        hexval (hexdigit (Byte.to_N b mod 16)) with
  | Some h, Some l => Byte.of_N (16 * h + l) = Some b
  | _, _ => False
  end.
Proof. by destruct b. Qed.

(** [unhexlify] undoes [hexlify]. *)
Lemma unhexlify_hexlify bs : unhexlify (hexlify bs) = Some bs.
Proof.
  induction bs as [|b bs IH]; simpl; [done|].
  pose proof (unhex_byte b) as Hb.
  destruct (hexval _) as [h|]; [|done].
  destruct (hexval _) as [l|]; [|done].
  by rewrite Hb, IH.
Qed.

Lemma hexlify_inj bs1 bs2 : hexlify bs1 = hexlify bs2 -> bs1 = bs2.
Proof.
  intros H. apply (f_equal unhexlify) in H.
  rewrite !unhexlify_hexlify in H. congruence.
Qed.

End PyFacts.

(** ** The stand-in signature scheme recovers its signer *)

Section StandIn.

Import RefPlatform.

Lemma split_bar_app a m :
  bar_free a = true -> split_bar (a +:+ "|" +:+ m) = Some (a, m).
Proof.
  induction a as [|c a IH]; simpl; [done|].
  intros [Hc Ha]%andb_prop. apply negb_true_iff in Hc. rewrite Hc.
  by rewrite IH.
Qed.

Lemma recover_sign a m :
  bar_free a = true -> recover m (sign a m) = Returns a.
Proof.
  intros Ha. unfold recover, sign. rewrite split_bar_app by done.
  by rewrite String.eqb_refl.
Qed.

End StandIn.

(** ** The views follow their paths *)

Section ViewFacts.

Context `{P : Platform}.


Lemma fresh_nonce_shaped w : nonce_shaped (fresh_nonce w).
Proof.
  split; [|apply hexlify_all_hex].
  unfold fresh_nonce, fresh_bytes.
  by rewrite hexlify_length, length_map, length_seq.
Qed.

Lemma str_lower_nil : str_lower "" = "".
Proof. by apply str_lower_empty. Qed.

Lemma same_lower_nonempty A A' :
  str_lower A' = str_lower A -> A <> "" -> A' <> "".
Proof.
  intros Hl HA ->. apply HA, str_lower_empty.
  by rewrite <- Hl, str_lower_nil.
Qed.

Lemma address_of_run data w : address_of data w = (claimed data, w).
Proof.
  unfold address_of, claimed, bind, lift.
  by destruct (Py.get data "address").
Qed.

Lemma claimed_dict data a :
  claimed data = Returns a -> exists d, data = JDict d.
Proof. destruct data; try discriminate. eauto. Qed.

Lemma claimed_address d A :
  dict_get "address" d = Some (JStr A) ->
  claimed (JDict d) = Returns (str_lower A).
Proof.
  intros H. unfold claimed, or_; simpl. rewrite H; simpl.
  by destruct A.
Qed.

Lemma claimed_falsy d :
  truthy (field d "address") = false -> claimed (JDict d) = Returns "".
Proof.
  intros H. unfold claimed, or_; simpl. unfold field in H. rewrite H. simpl.
  f_equal. by apply str_lower_empty.
Qed.

Lemma issue_store a w :
  (let* profile := objects_get_or_create a in
   let* n := token_hex 16 in
   let profile := set_nonce n profile in
   let* _ := save a profile in
   ret {| content := [("nonce", nonce_json profile)]; status := 200 |}) w
  = respond [("nonce", JStr (fresh_nonce w))] 200 (issued a w).
Proof.
  unfold bind, objects_get_or_create, save, ret, respond, issued, set_users.
  destruct (users w !! a) as [p|]; simpl; [done|].
  by rewrite insert_insert_eq.
Qed.

Lemma get_nonce_paths request w :
  get_nonce_path request w (get_nonce request w).
Proof.
  unfold get_nonce.
  destruct (String.eqb (method request) "POST") eqn:Hm; simpl.
  2: { apply String.eqb_neq in Hm. by constructor. }
  apply String.eqb_eq in Hm.
  unfold bind at 1, lift at 1.
  destruct (json_loads (body_or_default request)) as [data|e] eqn:Hd.
  2: { by constructor. }
  unfold bind at 1. rewrite address_of_run.
  destruct (claimed data) as [a|e] eqn:Ha.
  2: { by econstructor. }
  destruct (String.eqb a "") eqn:He; simpl.
  - apply String.eqb_eq in He. subst a. by econstructor.
  - apply String.eqb_neq in He. rewrite issue_store. by econstructor.
Qed.

Lemma grant_store a p w :
  (let* n := token_hex 16 in
   let* _ := save a (set_nonce n p) in
   let* _ := login a in
   ret {| content := [("success", JBool true); ("address", JStr a)];
          status := 200 |}) w
  = respond [("success", JBool true); ("address", JStr a)] 200 (granted a w).
Proof. reflexivity. Qed.

Lemma verify_signature_paths request w :
  verify_signature_path request w (verify_signature request w).
Proof.
  unfold verify_signature.
  destruct (String.eqb (method request) "POST") eqn:Hm; simpl.
  2: { apply String.eqb_neq in Hm. by constructor. }
  apply String.eqb_eq in Hm.
  unfold bind at 1, lift at 1.
  destruct (json_loads (body_or_default request)) as [data|e] eqn:Hd.
  2: { by constructor. }
  unfold bind at 1. rewrite address_of_run.
  destruct (claimed data) as [a|e] eqn:Ha.
  2: { by econstructor. }
  destruct (claimed_dict _ _ Ha) as [d ->].
  unfold bind at 1, lift at 1. simpl Py.get. fold (field d "signature").
  destruct (String.eqb a "") eqn:He; simpl.
  { apply String.eqb_eq in He. eapply verify_missing; eauto. }
  apply String.eqb_neq in He.
  destruct (truthy (field d "signature")) eqn:Hs; simpl.
  2: { eapply verify_missing; eauto. }
  unfold try_except at 1, objects_get.
  destruct (users w !! a) as [p|] eqn:Hu; simpl.
  2: { by eapply verify_unknown. }
  unfold try_except, bind at 1, lift at 1.
  fold (recovered p (field d "signature")).
  destruct (recovered p (field d "signature")) as [r|e] eqn:Hr; simpl.
  2: { by eapply verify_recover_fails. }
  destruct (String.eqb (str_lower r) a) eqn:Hc.
  - apply String.eqb_eq in Hc. rewrite grant_store. by eapply verify_ok.
  - apply String.eqb_neq in Hc. by eapply verify_mismatch.
Qed.

End ViewFacts.

(** ** What a well-formed call does *)

Section Calls.

Context `{P : Platform}.

Lemma field_of d key v : dict_get key d = Some v -> field d key = v.
Proof. intros H. unfold field. by rewrite H. Qed.

(** [issue(A)] for a non-empty [A] stores a fresh nonce under the
    lowercased address and returns it. *)
Lemma get_nonce_run request w A :
  issue_call request A -> A <> "" ->
  get_nonce request w =
    respond [("nonce", JStr (fresh_nonce w))] 200 (issued (str_lower A) w).
Proof.
  intros (d & [Hm Hd] & Ha) HA.
  apply claimed_address in Ha.
  assert (str_lower A <> "") as Hne by (by rewrite str_lower_empty).
  destruct (get_nonce_paths request w); try congruence.
  all: rewrite Hd in *; simplify_eq; congruence.
Qed.

(** [verify(A, sig)] with both fields present: the decision table. *)
Lemma verify_signature_run request w A sig :
  verify_call request A sig -> A <> "" -> truthy sig = true ->
  verify_signature request w =
    match users w !! str_lower A with
    | None =>
        respond [("success", JBool false); ("error", JStr "User not found")]
          404 w
    | Some p =>
        match recovered p sig with
        | Raises e =>
            respond [("success", JBool false);
                     ("error", JStr ("Recover failed: " +:+ exn_str e))] 400 w
        | Returns r =>
            if String.eqb (str_lower r) (str_lower A) then
              respond [("success", JBool true); ("address", JStr (str_lower A))]
                200 (granted (str_lower A) w)
            else
              respond [("success", JBool false);
                       ("error", JStr "Invalid signature")] 401 w
        end
    end.
Proof.
  intros (d & [Hm Hd] & Ha & Hs) HA Hsig.
  apply claimed_address in Ha. apply field_of in Hs.
  assert (str_lower A <> "") as Hne by (by rewrite str_lower_empty).
  destruct (verify_signature_paths request w) as
    [ | | | d' a ? Hd' Ha' Hor | d' a ? Hd' Ha' ? ? Hu
      | d' a p e ? Hd' Ha' ? ? Hu Hr | d' a p r ? Hd' Ha' ? ? Hu Hr Hc
      | d' a p r ? Hd' Ha' ? ? Hu Hr Hc ]; try congruence.
  all: rewrite Hd in Hd'; simplify_eq; rewrite Ha in Ha'; simplify_eq.
  - destruct Hor; congruence.
  - by rewrite Hu.
  - by rewrite Hu, Hr.
  - rewrite Hu, Hr. by apply String.eqb_neq in Hc as ->.
  - rewrite Ha', Hu, Hr. by rewrite String.eqb_refl.
Qed.

(** Without an address [issue] answers with status 400 and changes
    nothing. *)
Lemma get_nonce_missing request w d :
  posts request d -> truthy (field d "address") = false ->
  get_nonce request w = respond [("error", JStr "Missing address")] 400 w.
Proof.
  intros [Hm Hd] Ha. apply claimed_falsy in Ha.
  destruct (get_nonce_paths request w); try congruence.
  all: rewrite Hd in *; simplify_eq; congruence.
Qed.

(** Without an address, or with an address but without a signature,
    [verify] answers with status 400 and changes nothing. *)
Lemma verify_signature_missing request w d a :
  posts request d -> claimed (JDict d) = Returns a ->
  a = "" \/ truthy (field d "signature") = false ->
  verify_signature request w =
    respond [("success", JBool false);
             ("error", JStr "Missing address/signature")] 400 w.
Proof.
  intros [Hm Hd] Ha Hbad.
  destruct (verify_signature_paths request w); try congruence.
  all: rewrite Hd in *; simplify_eq; try done.
  all: destruct Hbad; congruence.
Qed.



End Calls.

(** ** The protocol's properties *)

Section Protocol.

Context `{P : Platform}.

(** C2: when recovery succeeds but the recovered address, lowercased, is
    not the normalized claimed address, [verify] answers
    [Invalid signature] with status 401 and the whole state, the stored
    nonce included, is what it was before the call. *)
Theorem verify_signature_mismatch request w A sig p r :
  verify_call request A sig -> A <> "" -> truthy sig = true ->
  users w !! str_lower A = Some p ->
  recovered p sig = Returns r ->
  str_lower r <> str_lower A ->
  verify_signature request w =
    respond [("success", JBool false); ("error", JStr "Invalid signature")]
      401 w.
Proof.
  intros Hcall HA Hsig Hu Hr Hne.
  rewrite (verify_signature_run _ _ _ _ Hcall HA Hsig), Hu, Hr.
  by apply String.eqb_neq in Hne as ->.
Qed.


(** C5: when the recovery primitive raises, [verify] answers with status
    400 and the error [Recover failed: ] followed by the text of the
    exception; this is not the answer of a mismatch, and the state, the
    stored nonce included, is unchanged. *)
Theorem verify_signature_recovery_failure request w A sig p e :
  verify_call request A sig -> A <> "" -> truthy sig = true ->
  users w !! str_lower A = Some p ->
  recovered p sig = Raises e ->
  verify_signature request w =
    respond [("success", JBool false);
             ("error", JStr ("Recover failed: " +:+ exn_str e))] 400 w
  /\ verify_signature request w <>
    respond [("success", JBool false); ("error", JStr "Invalid signature")]
      401 w.
Proof.
  intros Hcall HA Hsig Hu Hr.
  rewrite (verify_signature_run _ _ _ _ Hcall HA Hsig), Hu, Hr.
  split; [done|]. unfold respond. intros [=].
Qed.

(** C10: a granted [verify] echoes the lowercased form of the claimed
    address, whatever casing the caller sent. *)
Theorem verify_signature_echoes_lowercase request w A sig r w' :
  verify_call request A sig ->
  verify_signature request w = (Returns r, w') ->
  status r = 200 ->
  content r = [("success", JBool true); ("address", JStr (str_lower A))].
Proof.
  intros (d & [Hm Hd] & Ha & Hs) Hout Hst.
  apply claimed_address in Ha.
  pose proof (verify_signature_paths request w) as Hp.
  rewrite Hout in Hp.
  inversion Hp; subst; simpl in Hst; try discriminate.
  rewrite Hd in *. simplify_eq. simpl. congruence.
Qed.

(** C1 (amended): for an address whose record holds the nonce [N], a
    [verify] with a signature that recovers, over the canonical message for
    [N], to that address is granted with status 200; the record's nonce
    becomes the hex rendering of the next sixteen bytes of entropy, which
    has 32 characters and differs from [N] exactly when those bytes differ
    from the bytes [N] renders; and the session is established for the
    identity. *)
Theorem verify_signature_grants request w A sig N r :
  verify_call request A sig -> A <> "" -> truthy sig = true ->
  users w !! str_lower A = Some {| nonce := Some N |} ->
  recover_message (encode_defunct ("Login nonce: " +:+ N)) sig = Returns r ->
  str_lower r = str_lower A ->
  (verify_signature request w).1 =
    Returns {| content := [("success", JBool true);
                           ("address", JStr (str_lower A))];
               status := 200 |} /\
  users (verify_signature request w).2 !! str_lower A =
    Some {| nonce := Some (fresh_nonce w) |} /\
  session (verify_signature request w).2 = Some (str_lower A) /\
  nonce_shaped (fresh_nonce w) /\
  (forall bs, N = hexlify bs -> fresh_nonce w <> N <-> fresh_bytes w <> bs).
Proof.
  intros Hcall HA Hsig Hu Hr Hc.
  rewrite (verify_signature_run _ _ _ _ Hcall HA Hsig), Hu.
  unfold recovered, message_text; simpl. rewrite Hr.
  apply String.eqb_eq in Hc as ->. simpl.
  split_and!; [done| |done| |].
  - by rewrite lookup_insert_eq.
  - apply fresh_nonce_shaped.
  - intros bs ->. unfold fresh_nonce. split.
    + intros Hn Hb. apply Hn. by rewrite Hb.
    + intros Hb Hn. apply Hb. by apply hexlify_inj.
Qed.

(** C3 (amended): for a POST whose body is a JSON object, [issue] answers
    [Missing address] with status 400 when the address is missing or empty
    (nothing is trimmed), and [verify] answers [Missing address/signature]
    with status 400 when the address is missing or empty, or when the
    address is a string and the signature is missing or empty; the state is
    unchanged. *)
Theorem missing_fields_are_invalid_input request w d :
  posts request d ->
  (truthy (field d "address") = false ->
   get_nonce request w = respond [("error", JStr "Missing address")] 400 w) /\
  (truthy (field d "address") = false \/
   ((exists A, field d "address" = JStr A) /\
    truthy (field d "signature") = false) ->
   verify_signature request w =
     respond [("success", JBool false);
              ("error", JStr "Missing address/signature")] 400 w).
Proof.
  intros Hp. split.
  - by apply get_nonce_missing.
  - intros [Ha|[[A HA] Hs]].
    + eapply verify_signature_missing; [done|by apply claimed_falsy|by left].
    + eapply (verify_signature_missing _ _ _ (str_lower A)); [done| |by right].
      unfold claimed, or_; simpl. fold (field d "address"). rewrite HA.
      by destruct A.
Qed.

(** C6: [issue(A)] and [issue(lowercase(A))] act on one and the same
    record, the one keyed by the lowercased address.  From any state the two
    calls give the same answer and the same state, and touch no other
    record.  For a non-empty address each of them looks that record up,
    creates it when it is not there (the store grows by that one record),
    overwrites it when it is (no record is added), stores the fresh nonce in
    it and returns that nonce. *)
Theorem get_nonce_case_insensitive request request' w A :
  issue_call request A -> issue_call request' (str_lower A) ->
  get_nonce request w = get_nonce request' w /\
  (forall k, k <> str_lower A ->
     users (get_nonce request w).2 !! k = users w !! k) /\
  (A <> "" ->
   (get_nonce request w).1 =
     Returns {| content := [("nonce", JStr (fresh_nonce w))]; status := 200 |} /\
   users (get_nonce request w).2 =
     <[str_lower A := {| nonce := Some (fresh_nonce w) |}]> (users w) /\
   users (get_nonce request' w).2 =
     <[str_lower A := {| nonce := Some (fresh_nonce w) |}]> (users w) /\
   size (users (get_nonce request w).2) =
     match users w !! str_lower A with
     | Some _ => size (users w)
     | None => S (size (users w))
     end).
Proof.
  intros Hc Hc'.
  destruct (decide (A = "")) as [->|HA].
  - destruct Hc as (d & Hp & Ha), Hc' as (d' & Hp' & Ha').
    assert (str_lower "" = "") as Hnil by (by apply str_lower_empty).
    rewrite Hnil in Ha'. apply field_of in Ha, Ha'.
    rewrite (get_nonce_missing request w d Hp) by (by rewrite Ha).
    rewrite (get_nonce_missing request' w d' Hp') by (by rewrite Ha').
    by split_and!.
  - assert (str_lower A <> "") as HA' by (by rewrite str_lower_empty).
    rewrite (get_nonce_run _ _ _ Hc HA), (get_nonce_run _ _ _ Hc' HA').
    rewrite str_lower_idem. split_and!; [done| |].
    + intros k Hk. simpl. by rewrite lookup_insert_ne.
    + intros _. simpl. split_and!; [done..|].
      rewrite map_size_insert. by destruct (users w !! str_lower A).
Qed.

(** C7: two [issue] calls in a row for the same address, in whatever
    casing each, leave one record for it: the second call adds no record,
    and the record holds the nonce of the second call, the first one being
    overwritten. *)
Theorem get_nonce_twice_one_record request1 request2 w A A' :
  issue_call request1 A -> issue_call request2 A' ->
  str_lower A' = str_lower A -> A <> "" ->
  users (get_nonce request1 w).2 !! str_lower A =
    Some {| nonce := Some (fresh_nonce w) |} /\
  users (get_nonce request2 (get_nonce request1 w).2).2 !! str_lower A =
    Some {| nonce := Some (fresh_nonce (get_nonce request1 w).2) |} /\
  dom (users (get_nonce request2 (get_nonce request1 w).2).2) =
    dom (users (get_nonce request1 w).2) /\
  size (users (get_nonce request2 (get_nonce request1 w).2).2) =
    size (users (get_nonce request1 w).2).
Proof.
  intros H1 H2 Hl HA.
  assert (A' <> "") as HA' by (by apply (same_lower_nonempty A)).
  rewrite (get_nonce_run _ _ _ H1 HA). simpl.
  rewrite (get_nonce_run _ _ _ H2 HA'), Hl. simpl.
  rewrite !lookup_insert_eq, insert_insert_eq, !dom_insert_L, !map_size_insert.
  done.
Qed.



End Protocol.

(** ** The properties at work on the reference platform *)

Import RefPlatform Scenario.

Ltac by_decoding := eexists; unfold posts; split_and!; reflexivity.
Ltac by_running := vm_compute; reflexivity.

(** The concrete scenario of the specification: the challenge to 0xAbC is
    stored under 0xabc. *)
Example issue_AbC :
  issue ask_AbC empty_world =
    respond [("nonce", JStr n1)] 200
      {| users := {["0xabc" := {| nonce := Some n1 |}]};
         drawn := 16; session := None |}.
Proof. by_running. Qed.

(** C1, refuted as stated: on the stuck tape the challenge to 0xAbC is the
    nonce of 32 zeros; the holder's answer is granted, and the nonce that
    replaces it is again the 32 zeros. *)
Lemma rotation_may_repeat_the_nonce :
  users w1_stuck !! "0xabc" = Some {| nonce := Some zeros |} /\
  (verify_stuck answer_good_stuck w1_stuck).1 =
    Returns {| content := [("success", JBool true); ("address", JStr "0xabc")];
               status := 200 |} /\
  users (verify_stuck answer_good_stuck w1_stuck).2 !! "0xabc" =
    Some {| nonce := Some zeros |}.
Proof. split_and!; by_running. Qed.

Lemma verify_signature_grants_witness :
  (verify answer_good w1).1 =
    Returns {| content := [("success", JBool true); ("address", JStr "0xabc")];
               status := 200 |} /\
  users (verify answer_good w1).2 !! "0xabc" = Some {| nonce := Some n2 |} /\
  session (verify answer_good w1).2 = Some "0xabc" /\
  n2 <> n1.
Proof.
  destruct (@verify_signature_grants (reference counting) answer_good w1
              "0xAbC" (JStr "0xABC|Login nonce: 101112131415161718191a1b1c1d1e1f")
              n1 "0xABC")
    as (Hr & Hu & Hs & _ & Hn).
  - by_decoding.
  - discriminate.
  - reflexivity.
  - by_running.
  - by_running.
  - reflexivity.
  - split_and!; [exact Hr | exact Hu | exact Hs |].
    apply (Hn (map counting (seq 0 16))); [by_running|].
    vm_compute. discriminate.
Defined.

Lemma verify_signature_mismatch_witness :
  verify answer_stale w1 =
    respond [("success", JBool false); ("error", JStr "Invalid signature")]
      401 w1.
Proof.
  apply (@verify_signature_mismatch (reference counting) answer_stale w1
           "0xAbC" (JStr "0xABC|Login nonce: 0f0e0d0c0b0a09080706050403020100")
           {| nonce := Some n1 |} "0x000000000000000000000000000000000000dEaD").
  - by_decoding.
  - discriminate.
  - reflexivity.
  - by_running.
  - by_running.
  - vm_compute. discriminate.
Defined.

(** C3, refuted as stated: an address of one blank is not trimmed away; it
    is given a nonce and an identity record of its own. *)
Lemma issue_accepts_a_blank_address :
  issue ask_blank empty_world =
    respond [("nonce", JStr n1)] 200
      {| users := {[" " := {| nonce := Some n1 |}]};
         drawn := 16; session := None |}.
Proof. by_running. Qed.

Lemma missing_fields_are_invalid_input_witness :
  issue ask_nothing w1 = respond [("error", JStr "Missing address")] 400 w1 /\
  verify answer_unsigned w1 =
    respond [("success", JBool false);
             ("error", JStr "Missing address/signature")] 400 w1.
Proof.
  split.
  - apply (@missing_fields_are_invalid_input (reference counting) ask_nothing
             w1 [("address", JStr "")]); [by split|reflexivity].
  - apply (@missing_fields_are_invalid_input (reference counting)
             answer_unsigned w1
             [("address", JStr "0xAbC"); ("signature", JStr "")]);
      [by split|].
    right. split; [by exists "0xAbC"|reflexivity].
Defined.



Lemma verify_signature_recovery_failure_witness :
  verify answer_garbled w1 =
    respond [("success", JBool false);
             ("error", JStr "Recover failed: signature is not of the form address|message")]
      400 w1.
Proof.
  apply (@verify_signature_recovery_failure (reference counting)
           answer_garbled w1 "0xAbC" (JStr "garbled") {| nonce := Some n1 |}
           (Exn "BadSignature" "signature is not of the form address|message")).
  - by_decoding.
  - discriminate.
  - reflexivity.
  - by_running.
  - by_running.
Defined.

Lemma get_nonce_case_insensitive_witness :
  issue ask_AbC w1 = issue ask_abc w1 /\
  (issue ask_AbC w1).1 =
    Returns {| content := [("nonce", JStr n2)]; status := 200 |} /\
  users (issue ask_AbC w1).2 = {["0xabc" := {| nonce := Some n2 |}]} /\
  users (issue ask_abc w1).2 = {["0xabc" := {| nonce := Some n2 |}]} /\
  size (users (issue ask_AbC w1).2) = 1 /\
  size (users (issue ask_AbC empty_world).2) = 1.
Proof.
  destruct (@get_nonce_case_insensitive (reference counting) ask_AbC ask_abc
              w1 "0xAbC") as (He & _ & Hr); [by_decoding..|].
  destruct Hr as (Ha & Hu & Hu' & Hs); [discriminate|].
  destruct (@get_nonce_case_insensitive (reference counting) ask_AbC ask_abc
              empty_world "0xAbC") as (_ & _ & Hr0); [by_decoding..|].
  destruct Hr0 as (_ & _ & _ & Hs0); [discriminate|].
  unfold issue in *.
  split_and!.
  - exact He.
  - rewrite Ha. by_running.
  - rewrite Hu. by_running.
  - rewrite Hu'. by_running.
  - rewrite Hs. by_running.
  - rewrite Hs0. by_running.
Defined.

Lemma get_nonce_twice_one_record_witness :
  users (issue ask_AbC empty_world).2 !! "0xabc" = Some {| nonce := Some n1 |} /\
  users (issue ask_abc (issue ask_AbC empty_world).2).2 !! "0xabc" =
    Some {| nonce := Some n2 |} /\
  dom (users (issue ask_abc (issue ask_AbC empty_world).2).2) =
    dom (users (issue ask_AbC empty_world).2) /\
  size (users (issue ask_abc (issue ask_AbC empty_world).2).2) =
    size (users (issue ask_AbC empty_world).2).
Proof.
  apply (@get_nonce_twice_one_record (reference counting) ask_AbC ask_abc
           empty_world "0xAbC" "0xabc").
  - by_decoding.
  - by_decoding.
  - reflexivity.
  - discriminate.
Defined.


Lemma verify_signature_echoes_lowercase_witness :
  verify answer_good w1 =
    (Returns {| content := [("success", JBool true); ("address", JStr "0xabc")];
                status := 200 |},
     @granted (reference counting) "0xabc" w1) /\
  content {| content := [("success", JBool true); ("address", JStr "0xabc")];
             status := 200 |} =
    [("success", JBool true);
     ("address", JStr (@str_lower (reference counting) "0xAbC"))].
Proof.
  assert (verify answer_good w1 =
    (Returns {| content := [("success", JBool true); ("address", JStr "0xabc")];
                status := 200 |},
     @granted (reference counting) "0xabc" w1)) as Hv by by_running.
  split; [exact Hv|].
  apply (@verify_signature_echoes_lowercase (reference counting) answer_good w1
           "0xAbC" (JStr "0xABC|Login nonce: 101112131415161718191a1b1c1d1e1f")
           _ _ ltac:(by_decoding) Hv).
  reflexivity.
Defined.

(** The concrete scenario of the specification, to its end: after the
    grant, the next challenge to the same identity is a third nonce. *)
Example issue_after_grant :
  (issue ask_abc (verify answer_good w1).2).1 =
    Returns {| content := [("nonce", JStr "303132333435363738393a3b3c3d3e3f")];
               status := 200 |}.
Proof. by_running. Qed.

(** ** More of what the views do *)

Section Footprint.

Context `{P : Platform}.

Lemma claimed_of_field d :
  claimed (JDict d) = lower (or_ (field d "address") (JStr "")).
Proof. reflexivity. Qed.

(** X1: a request that is not a POST is refused with status 405 by both
    views before its body is looked at, whatever the body is, and the state
    is unchanged. *)
Theorem non_post_is_refused request w :
  method request <> "POST" ->
  get_nonce request w = respond [("error", JStr "POST required")] 405 w /\
  verify_signature request w = respond [("error", JStr "POST required")] 405 w.
Proof.
  intros Hm. split.
  - destruct (get_nonce_paths request w); congruence.
  - destruct (verify_signature_paths request w); congruence.
Qed.

(** X2: where the decoder reads the text of the empty object as the empty
    object, a POST with an empty body is answered like a missing address,
    with status 400 and no change of state; it is not a decoding error. *)
Theorem empty_body_is_missing_address request w :
  json_loads "{}" = Returns (JDict []) ->
  method request = "POST" -> body request = "" ->
  get_nonce request w = respond [("error", JStr "Missing address")] 400 w /\
  verify_signature request w =
    respond [("success", JBool false);
             ("error", JStr "Missing address/signature")] 400 w.
Proof.
  intros Hl Hm Hb.
  assert (posts request []) as Hp.
  { split; [done|]. unfold body_or_default. by rewrite Hb. }
  split.
  - by apply (get_nonce_missing _ _ [] Hp).
  - apply (verify_signature_missing _ _ [] "" Hp); [|by left].
    by apply claimed_falsy.
Qed.

(** X3: [get_nonce] never touches the session, never removes a record and
    adds at most one, whatever the request. *)
Theorem get_nonce_footprint request w :
  session (get_nonce request w).2 = session w /\
  dom (users w) ⊆ dom (users (get_nonce request w).2) /\
  size (users (get_nonce request w).2) <= S (size (users w)).
Proof.
  destruct (get_nonce_paths request w); simpl; split_and!; try done; try lia.
  - rewrite dom_insert_L. set_solver.
  - rewrite map_size_insert. destruct (users w !! a); simpl; lia.
Qed.

(** X4: [issue(A)] registers a first-seen address, adding exactly one
    record, and adds none for an address on record. *)
Theorem get_nonce_registers_first_seen request w A :
  issue_call request A -> A <> "" ->
  size (users (get_nonce request w).2) =
    match users w !! str_lower A with
    | Some _ => size (users w)
    | None => S (size (users w))
    end.
Proof.
  intros Hc HA. rewrite (get_nonce_run _ _ _ Hc HA). simpl.
  rewrite map_size_insert. by destruct (users w !! str_lower A).
Qed.

(** X5: [verify_signature] never adds or removes an identity, whatever the
    request: the addresses on record are the same before and after. *)
Theorem verify_signature_keeps_identities request w :
  dom (users (verify_signature request w).2) = dom (users w).
Proof.
  destruct (verify_signature_paths request w); simpl; try done.
  apply dom_insert_lookup_L. eauto.
Qed.

(** X6: a [verify_signature] that leaves the session logged in as [a],
    where it was not before, had a record for [a], claimed [a], and
    recovered from the signature, over the canonical message of that
    record, an address that lowercases to [a]. *)
Theorem session_only_by_matching_signature request w a :
  session (verify_signature request w).2 = Some a ->
  session w <> Some a ->
  exists d p r,
    posts request d /\ claimed (JDict d) = Returns a /\
    users w !! a = Some p /\
    recovered p (field d "signature") = Returns r /\ str_lower r = a.
Proof.
  intros Hs Hw.
  destruct (verify_signature_paths request w)
    as [ | | | | | | | d a' p r Hm Hd Ha Hne Ht Hu Hr Hc ];
    simpl in Hs; try congruence.
  simplify_eq. exists d, p, r. by split_and!.
Qed.

End Footprint.

Section Inputs.

Context `{P : Platform}.

(** What the views do with a POST that decodes to the object [d]. *)
Lemma get_nonce_posts request w d :
  posts request d ->
  get_nonce request w =
    match claimed (JDict d) with
    | Raises e => (Raises e, w)
    | Returns a =>
        if String.eqb a "" then
          respond [("error", JStr "Missing address")] 400 w
        else respond [("nonce", JStr (fresh_nonce w))] 200 (issued a w)
    end.
Proof.
  intros [Hm Hd].
  destruct (get_nonce_paths request w) as
    [ | | data e ? Hd' Hc | data ? Hd' Hc | data a ? Hd' Hc Hne ];
    try congruence.
  all: rewrite Hd in Hd'; simplify_eq; rewrite Hc; try done.
  by apply String.eqb_neq in Hne as ->.
Qed.

Lemma verify_signature_posts request w d :
  posts request d ->
  verify_signature request w =
    match claimed (JDict d) with
    | Raises e => (Raises e, w)
    | Returns a =>
        if String.eqb a "" || negb (truthy (field d "signature")) then
          respond [("success", JBool false);
                   ("error", JStr "Missing address/signature")] 400 w
        else
          match users w !! a with
          | None =>
              respond [("success", JBool false);
                       ("error", JStr "User not found")] 404 w
          | Some p =>
              match recovered p (field d "signature") with
              | Raises e =>
                  respond [("success", JBool false);
                           ("error", JStr ("Recover failed: " +:+ exn_str e))]
                    400 w
              | Returns r =>
                  if String.eqb (str_lower r) a then
                    respond [("success", JBool true); ("address", JStr a)] 200
                      (granted a w)
                  else
                    respond [("success", JBool false);
                             ("error", JStr "Invalid signature")] 401 w
              end
          end
    end.
Proof.
  intros [Hm Hd].
  destruct (verify_signature_paths request w) as
    [ | | data e ? Hd' Hc | d' a ? Hd' Hc Hor | d' a ? Hd' Hc Hne Ht Hu
      | d' a p e ? Hd' Hc Hne Ht Hu Hr | d' a p r ? Hd' Hc Hne Ht Hu Hr Hx
      | d' a p r ? Hd' Hc Hne Ht Hu Hr Hx ]; try congruence.
  all: rewrite Hd in Hd'; simplify_eq; rewrite Hc; try done.
  - destruct Hor as [->| ->]; [done|]. by rewrite orb_true_r.
  - apply String.eqb_neq in Hne as ->. by rewrite Ht, Hu.
  - apply String.eqb_neq in Hne as ->. by rewrite Ht, Hu, Hr.
  - apply String.eqb_neq in Hne as ->. rewrite Ht, Hu, Hr. simpl.
    by apply String.eqb_neq in Hx as ->.
  - apply String.eqb_neq in Hne as ->. rewrite Ht, Hu, Hr. simpl.
    by rewrite String.eqb_refl.
Qed.

(** X7: the casing of the claimed address never matters: two [issue] calls,
    or two [verify] calls with the same signature, whose addresses differ in
    letter case only, give the same answer and the same state. *)
Theorem casing_never_matters request request' w A A' sig :
  str_lower A = str_lower A' ->
  (issue_call request A -> issue_call request' A' ->
   get_nonce request w = get_nonce request' w) /\
  (verify_call request A sig -> verify_call request' A' sig ->
   verify_signature request w = verify_signature request' w).
Proof.
  intros Hl. split.
  - intros Hc Hc'.
    destruct (decide (A = "")) as [->|HA].
    + rewrite str_lower_nil in Hl. symmetry in Hl.
      apply str_lower_empty in Hl as ->.
      destruct Hc as (d & Hp & Ha), Hc' as (d' & Hp' & Ha').
      apply field_of in Ha, Ha'.
      rewrite (get_nonce_missing _ w d Hp) by (by rewrite Ha).
      by rewrite (get_nonce_missing _ w d' Hp') by (by rewrite Ha').
    + assert (A' <> "") as HA' by (by apply (same_lower_nonempty A)).
      by rewrite (get_nonce_run _ _ _ Hc HA), (get_nonce_run _ _ _ Hc' HA'), Hl.
  - intros Hc Hc'.
    destruct (decide (A <> "" /\ truthy sig = true)) as [[HA Hs]|Hn].
    + assert (A' <> "") as HA' by (by apply (same_lower_nonempty A)).
      rewrite (verify_signature_run _ _ _ _ Hc HA Hs).
      rewrite (verify_signature_run _ _ _ _ Hc' HA' Hs).
      by rewrite Hl.
    + assert (str_lower A = "" \/ truthy sig = false) as Hbad.
      { destruct (decide (A = "")) as [->|HA];
          [left; apply str_lower_nil|right].
        destruct (truthy sig); [|done]. exfalso. by apply Hn. }
      destruct Hc as (d & Hp & Ha & Hs), Hc' as (d' & Hp' & Ha' & Hs').
      apply claimed_address in Ha, Ha'. apply field_of in Hs, Hs'.
      rewrite (verify_signature_missing _ w d _ Hp Ha)
        by (by rewrite Hs).
      rewrite (verify_signature_missing _ w d' _ Hp' Ha')
        by (by rewrite Hs', <- Hl).
      done.
Qed.

(** X8: a view looks at nothing in the body but its fields: two POSTs whose
    decoded objects agree on [address] are the same to [get_nonce], and if
    they agree on [signature] too they are the same to [verify_signature],
    whatever else the objects carry and in whatever order. *)
Theorem other_fields_never_matter request request' w d d' :
  posts request d -> posts request' d' ->
  field d "address" = field d' "address" ->
  get_nonce request w = get_nonce request' w /\
  (field d "signature" = field d' "signature" ->
   verify_signature request w = verify_signature request' w).
Proof.
  intros Hp Hp' Ha. split.
  - rewrite (get_nonce_posts _ _ _ Hp), (get_nonce_posts _ _ _ Hp').
    by rewrite !claimed_of_field, Ha.
  - intros Hs.
    rewrite (verify_signature_posts _ _ _ Hp), (verify_signature_posts _ _ _ Hp').
    by rewrite !claimed_of_field, Ha, Hs.
Qed.

(** X9: when the body of a POST does not decode, the decoder's exception
    leaves both views as it is, and the state is unchanged. *)
Theorem decode_failure_propagates request w e :
  method request = "POST" ->
  json_loads (body_or_default request) = Raises e ->
  get_nonce request w = (Raises e, w) /\
  verify_signature request w = (Raises e, w).
Proof.
  intros Hm Hd. split.
  - destruct (get_nonce_paths request w); congruence.
  - destruct (verify_signature_paths request w); congruence.
Qed.

(** X10: a body that decodes to something other than an object makes both
    views raise the [AttributeError] of a missing [get]; an object whose
    address is truthy and not a string makes them raise the
    [AttributeError] of a missing [lower], whatever the signature; in both
    cases the error names the type of the value and the state is
    unchanged. *)
Theorem wrong_types_raise request w :
  method request = "POST" ->
  (forall data, json_loads (body_or_default request) = Returns data ->
     (forall d, data <> JDict d) ->
     get_nonce request w = (Raises (AttributeError data "get"), w) /\
     verify_signature request w = (Raises (AttributeError data "get"), w)) /\
  (forall d, json_loads (body_or_default request) = Returns (JDict d) ->
     truthy (field d "address") = true ->
     (forall s, field d "address" <> JStr s) ->
     get_nonce request w =
       (Raises (AttributeError (field d "address") "lower"), w) /\
     verify_signature request w =
       (Raises (AttributeError (field d "address") "lower"), w)).
Proof.
  intros Hm. split.
  - intros data Hd Hnd.
    assert (claimed data = Raises (AttributeError data "get")) as Hc.
    { destruct data; try done. by destruct (Hnd d). }
    split.
    + destruct (get_nonce_paths request w); try congruence.
      all: rewrite Hd in *; simplify_eq; congruence.
    + destruct (verify_signature_paths request w); try congruence.
      all: rewrite Hd in *; simplify_eq; congruence.
  - intros d Hd Ht Hns.
    assert (claimed (JDict d) =
            Raises (AttributeError (field d "address") "lower")) as Hc.
    { rewrite claimed_of_field. unfold or_. rewrite Ht.
      destruct (field d "address") eqn:Hf; try done. by destruct (Hns s). }
    split.
    + destruct (get_nonce_paths request w); try congruence.
      all: rewrite Hd in *; simplify_eq; congruence.
    + destruct (verify_signature_paths request w); try congruence.
      all: rewrite Hd in *; simplify_eq; congruence.
Qed.

(** X11: [issue] then [verify] for the same address, in whatever casing
    each: the identity is on record, and the signature is checked against
    the text [Login nonce: ] followed by the very nonce the [issue] call
    returned; the answer is 400 when recovery raises, 200 when the
    recovered address lowercases to the claimed one, and 401 otherwise. *)
Theorem issue_then_verify request1 request2 w A A' sig :
  issue_call request1 A -> A <> "" ->
  verify_call request2 A' sig -> truthy sig = true ->
  str_lower A' = str_lower A ->
  (get_nonce request1 w).1 =
    Returns {| content := [("nonce", JStr (fresh_nonce w))]; status := 200 |} /\
  verify_signature request2 (get_nonce request1 w).2 =
    match recover_message
            (encode_defunct ("Login nonce: " +:+ fresh_nonce w)) sig with
    | Raises e =>
        respond [("success", JBool false);
                 ("error", JStr ("Recover failed: " +:+ exn_str e))] 400
          (get_nonce request1 w).2
    | Returns r =>
        if String.eqb (str_lower r) (str_lower A) then
          respond [("success", JBool true); ("address", JStr (str_lower A))]
            200 (granted (str_lower A) (get_nonce request1 w).2)
        else
          respond [("success", JBool false); ("error", JStr "Invalid signature")]
            401 (get_nonce request1 w).2
    end.
Proof.
  intros Hc HA Hv Hs Hl.
  assert (A' <> "") as HA' by (by apply (same_lower_nonempty A)).
  rewrite (get_nonce_run _ _ _ Hc HA). split; [done|].
  rewrite (verify_signature_run _ _ _ _ Hv HA' Hs), Hl. simpl.
  by rewrite lookup_insert_eq.
Qed.

(** X12: for an identity on record whose nonce was never set, the text the
    signature is checked against is [Login nonce: None]; a signature that
    recovers over it to the claimed address is granted. *)
Theorem verify_signature_without_nonce request w A sig r :
  verify_call request A sig -> A <> "" -> truthy sig = true ->
  users w !! str_lower A = Some {| nonce := None |} ->
  recover_message (encode_defunct "Login nonce: None") sig = Returns r ->
  str_lower r = str_lower A ->
  verify_signature request w =
    respond [("success", JBool true); ("address", JStr (str_lower A))] 200
      (granted (str_lower A) w).
Proof.
  intros Hc HA Hs Hu Hr Hl.
  rewrite (verify_signature_run _ _ _ _ Hc HA Hs), Hu.
  change (recovered {| nonce := None |} sig)
    with (recover_message (encode_defunct "Login nonce: None") sig).
  rewrite Hr. by apply String.eqb_eq in Hl as ->.
Qed.

End Inputs.

(** ** The site as a whole *)

(** Two paths of one request read the same body, address and record. *)
Ltac same_inputs :=
  repeat match goal with
  | H1 : json_loads ?b = _, H2 : json_loads ?b = _ |- _ =>
      rewrite H1 in H2; simplify_eq
  | H1 : claimed ?d = _, H2 : claimed ?d = _ |- _ =>
      rewrite H1 in H2; simplify_eq
  | H1 : users ?w !! ?a = _, H2 : users ?w !! ?a = _ |- _ =>
      rewrite H1 in H2; simplify_eq
  | H1 : recovered ?p ?v = _, H2 : recovered ?p ?v = _ |- _ =>
      rewrite H1 in H2; simplify_eq
  end.

Section SiteFacts.

Context `{P : Platform}.

Lemma claimed_normal data a : claimed data = Returns a -> str_lower a = a.
Proof.
  destruct data; try discriminate. rewrite claimed_of_field.
  destruct (or_ _ _); try discriminate.
  intros [= <-]. apply str_lower_idem.
Qed.

Lemma issued_ok a w :
  a <> "" -> str_lower a = a -> site_ok w -> site_ok (issued a w).
Proof.
  intros Hne Hl [Hst Hse]. split.
  - intros k p. simpl. rewrite lookup_insert.
    case_decide as Hk; [|by apply Hst].
    intros [= <-]. subst k. split; [done|].
    eexists. split; [done|apply fresh_nonce_shaped].
  - intros k Hk. simpl in *. apply lookup_insert_is_Some.
    destruct (decide (a = k)); [by left|right]. split; [done|by apply Hse].
Qed.

Lemma granted_ok a p w :
  users w !! a = Some p -> site_ok w -> site_ok (granted a w).
Proof.
  intros Hu [Hst Hse]. destruct (Hst _ _ Hu) as [[Hne Hl] _]. split.
  - by apply (issued_ok a w Hne Hl).
  - intros k [= <-]. simpl. rewrite lookup_insert_eq. eauto.
Qed.

Lemma get_nonce_ok request w : site_ok w -> site_ok (get_nonce request w).2.
Proof.
  intros Hw.
  destruct (get_nonce_paths request w) as [ | | | | data a ? ? Hc Hne ];
    simpl; try done.
  apply issued_ok; [done| |done]. by apply (claimed_normal data).
Qed.

Lemma verify_signature_ok request w :
  site_ok w -> site_ok (verify_signature request w).2.
Proof.
  intros Hw.
  destruct (verify_signature_paths request w); simpl; try done.
  by eapply granted_ok.
Qed.

Lemma json_view_state view request w :
  (json_view view request w).2 = (view request w).2.
Proof.
  unfold json_view, bind. by destruct (view request w) as [[r|e] w'].
Qed.

Lemma dashboard_run request w :
  dashboard request w =
    match session w with
    | Some a =>
        (Returns (Json {| content :=
                            [("message",
                              JStr ("Hola " +:+ a +:+
                                    ", estás autenticado con MetaMask."))];
                          status := 200 |}), w)
    | None => (Returns LoginRedirect, w)
    end.
Proof.
  unfold dashboard, login_required, bind, request_user_username.
  by destruct (session w).
Qed.

(** The view a path is served by. *)
Lemma serve_cases path request w :
  serve path request w = index request w \/
  serve path request w = json_view get_nonce request w \/
  serve path request w = json_view verify_signature request w \/
  serve path request w = dashboard request w \/
  serve path request w = logout_view request w \/
  serve path request w = (Raises (Exn "Resolver404" path), w).
Proof.
  unfold serve, resolve, urlpatterns, resolve_in.
  repeat (destruct (String.eqb _ path); [tauto|]). tauto.
Qed.

Lemma serve_ok path request w : site_ok w -> site_ok (serve path request w).2.
Proof.
  intros Hw.
  destruct (serve_cases path request w) as [-> | [-> | [-> | [-> | [-> | ->]]]]].
  - done.
  - rewrite json_view_state. by apply get_nonce_ok.
  - rewrite json_view_state. by apply verify_signature_ok.
  - rewrite dashboard_run. by destruct (session w).
  - destruct Hw as [Hst _]. split; [done|]. intros a. simpl. discriminate.
  - done.
Qed.

(** X13: whatever requests reach the site, in whatever order, it keeps its
    state in order: every record is keyed by a non-empty lowercase address
    and holds a nonce of 32 hexadecimal characters, and a logged-in session
    belongs to an identity on record. *)
Theorem site_keeps_its_state_in_order visits w :
  site_ok w -> site_ok (run visits w).
Proof.
  revert w. induction visits as [|[path request] visits IH]; intros w Hw.
  - done.
  - simpl. apply IH. by apply serve_ok.
Qed.



(** X17: [get_nonce] and [verify_signature] never read the session: who is
    logged in changes neither their answer nor what they leave in the store
    and on the entropy tape. *)
Theorem views_ignore_the_session s request w :
  ((get_nonce request (set_session s w)).1 = (get_nonce request w).1 /\
   users (get_nonce request (set_session s w)).2 = users (get_nonce request w).2 /\
   drawn (get_nonce request (set_session s w)).2 = drawn (get_nonce request w).2) /\
  ((verify_signature request (set_session s w)).1 = (verify_signature request w).1 /\
   users (verify_signature request (set_session s w)).2 =
     users (verify_signature request w).2 /\
   drawn (verify_signature request (set_session s w)).2 =
     drawn (verify_signature request w).2).
Proof.
  split.
  - destruct (get_nonce_paths request w);
      destruct (get_nonce_paths request (set_session s w));
      simpl in *; try congruence; same_inputs; try done; congruence.
  - destruct (verify_signature_paths request w);
      destruct (verify_signature_paths request (set_session s w));
      simpl in *; try congruence; same_inputs; try done;
      try congruence.
    all: try match goal with H : _ \/ _ |- _ => destruct H; congruence end.
    match goal with H : str_lower _ = str_lower _ |- _ => rewrite H end.
    done.
Qed.


(** X16: in [urlpatterns] no route and no name hides another: each listed
    route resolves to the view listed with it, and each listed name reverses
    to the route listed with it. *)
Theorem routes_round_trip route view name :
  (route, view, name) ∈ urlpatterns ->
  resolve route = Some view /\ reverse name = Some route.
Proof.
  unfold urlpatterns. intros H.
  repeat (apply elem_of_cons in H as [H|H];
          [injection H as -> -> ->; by split|]).
  by apply elem_of_nil in H.
Qed.

End SiteFacts.

(** ** These properties on the reference platform *)

Import Tour.

Lemma non_post_is_refused_witness :
  issue GET_not_json w1 = respond [("error", JStr "POST required")] 405 w1 /\
  verify GET_not_json w1 = respond [("error", JStr "POST required")] 405 w1.
Proof.
  apply (@non_post_is_refused (reference counting) GET_not_json w1).
  discriminate.
Defined.

Lemma empty_body_is_missing_address_witness :
  issue POST_nothing w1 = respond [("error", JStr "Missing address")] 400 w1 /\
  verify POST_nothing w1 =
    respond [("success", JBool false);
             ("error", JStr "Missing address/signature")] 400 w1.
Proof.
  apply (@empty_body_is_missing_address (reference counting) POST_nothing w1);
    reflexivity.
Defined.

Lemma get_nonce_registers_first_seen_witness :
  size (users (issue ask_AbC empty_world).2) = 1 /\
  size (users (issue ask_AbC w1).2) = 1.
Proof.
  split.
  - unfold issue.
    rewrite (@get_nonce_registers_first_seen (reference counting) ask_AbC
               empty_world "0xAbC"); [by_running|by_decoding|discriminate].
  - unfold issue.
    rewrite (@get_nonce_registers_first_seen (reference counting) ask_AbC
               w1 "0xAbC"); [by_running|by_decoding|discriminate].
Defined.

Lemma session_only_by_matching_signature_witness :
  exists d p r,
    @posts (reference counting) answer_good d /\
    @claimed (reference counting) (JDict d) = Returns "0xabc" /\
    users w1 !! "0xabc" = Some p /\
    @recovered (reference counting) p (field d "signature") = Returns r /\
    @str_lower (reference counting) r = "0xabc".
Proof.
  apply (@session_only_by_matching_signature (reference counting) answer_good
           w1 "0xabc").
  - by_running.
  - vm_compute. discriminate.
Defined.

Lemma casing_never_matters_witness :
  issue ask_AbC w1 = issue ask_abc w1 /\
  verify answer_good w1 = verify answer_good_lower w1.
Proof.
  destruct (@casing_never_matters (reference counting) ask_AbC ask_abc w1
              "0xAbC" "0xabc"
              (JStr "0xABC|Login nonce: 101112131415161718191a1b1c1d1e1f")
              eq_refl) as [Hi _].
  destruct (@casing_never_matters (reference counting) answer_good
              answer_good_lower w1 "0xAbC" "0xabc"
              (JStr "0xABC|Login nonce: 101112131415161718191a1b1c1d1e1f")
              eq_refl) as [_ Hv].
  split; [apply Hi | apply Hv]; by_decoding.
Defined.

Lemma other_fields_never_matter_witness :
  issue ask_AbC w1 = issue ask_AbC_more w1.
Proof.
  apply (@other_fields_never_matter (reference counting) ask_AbC ask_AbC_more
           w1 [("address", JStr "0xAbC")]
           [("chain", JList [JInt 1; JInt 2]); ("address", JStr "0xAbC")]).
  - split; reflexivity.
  - split; reflexivity.
  - reflexivity.
Defined.

Lemma decode_failure_propagates_witness :
  issue not_json w1 = (Raises (Exn "JSONDecodeError" "Expecting value"), w1) /\
  verify not_json w1 = (Raises (Exn "JSONDecodeError" "Expecting value"), w1).
Proof.
  apply (@decode_failure_propagates (reference counting) not_json w1);
    reflexivity.
Defined.

Lemma wrong_types_raise_witness :
  issue post_list w1 =
    (Raises (Exn "AttributeError" "'list' object has no attribute 'get'"), w1) /\
  verify ask_list w1 =
    (Raises (Exn "AttributeError" "'list' object has no attribute 'lower'"), w1).
Proof.
  split.
  - destruct (@wrong_types_raise (reference counting) post_list w1 eq_refl)
      as [H _].
    apply (H (JList [JInt 1; JInt 2])); [reflexivity|discriminate].
  - destruct (@wrong_types_raise (reference counting) ask_list w1 eq_refl)
      as [_ H].
    apply (H [("address", JList [JInt 1])]);
      [reflexivity|reflexivity|discriminate].
Defined.

Lemma issue_then_verify_witness :
  (issue ask_AbC empty_world).1 =
    Returns {| content := [("nonce", JStr n1)]; status := 200 |} /\
  verify answer_good_lower (issue ask_AbC empty_world).2 =
    respond [("success", JBool true); ("address", JStr "0xabc")] 200
      (@granted (reference counting) "0xabc" w1).
Proof.
  destruct (@issue_then_verify (reference counting) ask_AbC answer_good_lower
              empty_world "0xAbC" "0xabc"
              (JStr "0xABC|Login nonce: 101112131415161718191a1b1c1d1e1f"))
    as [Hi Hv].
  - by_decoding.
  - discriminate.
  - by_decoding.
  - reflexivity.
  - reflexivity.
  - split; [exact Hi|]. unfold verify, issue. rewrite Hv. by_running.
Defined.

Lemma verify_signature_without_nonce_witness :
  verify answer_none w_null =
    respond [("success", JBool true); ("address", JStr "0xabc")] 200
      (@granted (reference counting) "0xabc" w_null).
Proof.
  apply (@verify_signature_without_nonce (reference counting) answer_none
           w_null "0xAbC" (JStr "0xabc|Login nonce: None") "0xabc").
  - by_decoding.
  - discriminate.
  - reflexivity.
  - by_running.
  - by_running.
  - reflexivity.
Defined.

Lemma site_keeps_its_state_in_order_witness :
  @site_ok (reference counting) (@run (reference counting) tour empty_world).
Proof.
  apply (@site_keeps_its_state_in_order (reference counting) tour empty_world).
  split.
  - intros a p H. simpl in H. by rewrite lookup_empty in H.
  - intros a H. simpl in H. discriminate.
Defined.


Lemma routes_round_trip_witness :
  @resolve (reference counting) "logout/" = Some logout_view /\
  @reverse (reference counting) "logout" = Some "logout/".
Proof.
  apply (@routes_round_trip (reference counting) "logout/" logout_view "logout").
  unfold urlpatterns.
  do 4 (apply elem_of_cons; right). apply elem_of_cons. by left.
Defined.
